(** * Job handlers of bids-core (jobs.py): state machine, claim, mutation

    A shallow embedding of [jobs.py].  The module is Python 2 source that talks
    to a MongoDB collection through pymongo and to the HTTP layer through a
    webapp2 request handler.  The embedding keeps what the handlers do
    statement by statement, in evaluation order:

    - Python values are the inductive [value]; an operation that Python can
      refuse returns [res], whose [Raise] carries the exception;
    - a handler is a computation [M] over the [world]: the job collection and
      the process's standard output;
    - a bare name is resolved when it is evaluated, against the names the
      module binds and the interpreter's builtins ([global]);
    - [datetime.datetime.now()] is the handler's [now] argument; the
      request's body is decoded by [request_json], and the handler past that
      line takes the decoded value as its [mutation] argument.

    Line 92 of the source reads
    ['Cannot mutate a job that is ' + job['state'] '.'], which lacks a [+]
    before the last literal and is not accepted by the Python parser.  The
    embedding reads the argument as the concatenation of the three parts
    ([line_92_detail]); the gate is defined for any evaluation of that
    argument ([put_gate_with]), so that what does not depend on the reading
    can be stated without it. *)

From Stdlib Require Import ZArith List String Ascii Bool.
Import ListNotations.

Set Warnings "-register-all".

Local Open Scope string_scope.
Local Open Scope Z_scope.

(** ** Python values and exceptions *)

Inductive value : Type :=
| VNone
| VBool (b : bool)
| VInt (z : Z)
| VStr (s : string)
| VTime (t : Z)                       (* a datetime, as a point on a clock *)
| VList (l : list value)
| VDict (d : list (string * value))   (* keys in iteration order *)
| VObj (name : string).               (* a module, class or function *)

Inductive exn : Type :=
| NameError
| TypeError
| KeyError
| ValueError
| AttributeError
| OverflowError
| InvalidDocument                     (* bson.errors.InvalidDocument *)
| OperationFailure                    (* pymongo.errors.OperationFailure *)
| HTTPException (code : Z) (detail : value).   (* raised by self.abort *)

Inductive res (A : Type) : Type :=
| Ok (a : A)
| Raise (e : exn).

Arguments Ok {A} a.
Arguments Raise {A} e.

Definition rbind {A B} (r : res A) (f : A -> res B) : res B :=
  match r with
  | Ok a => f a
  | Raise e => Raise e
  end.

(** ** Dictionaries as association lists *)

Fixpoint assoc {A} (k : string) (d : list (string * A)) : option A :=
  match d with
  | [] => None
  | (k', v) :: r => if String.eqb k k' then Some v else assoc k r
  end.

Fixpoint assoc_set {A} (k : string) (v : A) (d : list (string * A))
  : list (string * A) :=
  match d with
  | [] => [(k, v)]
  | (k', v') :: r =>
      if String.eqb k k' then (k, v) :: r else (k', v') :: assoc_set k v r
  end.

(** ** The operators and builtins the handlers use *)

(** [a == b]. *)
Fixpoint value_eqb (a b : value) {struct a} : bool :=
  match a with
  | VNone => match b with VNone => true | _ => false end
  | VBool x =>
      match b with
      | VBool y => Bool.eqb x y
      | VInt y => Z.eqb (if x then 1 else 0) y
      | _ => false
      end
  | VInt x =>
      match b with
      | VInt y => Z.eqb x y
      | VBool y => Z.eqb x (if y then 1 else 0)
      | _ => false
      end
  | VStr x => match b with VStr y => String.eqb x y | _ => false end
  | VTime x => match b with VTime y => Z.eqb x y | _ => false end
  | VObj x => match b with VObj y => String.eqb x y | _ => false end
  | VList l1 =>
      match b with
      | VList l2 =>
          (fix go (l1 l2 : list value) {struct l1} : bool :=
             match l1, l2 with
             | [], [] => true
             | x :: xs, y :: ys => value_eqb x y && go xs ys
             | _, _ => false
             end) l1 l2
      | _ => false
      end
  | VDict d1 =>
      match b with
      | VDict d2 =>
          Nat.eqb (List.length d1) (List.length d2) &&
          (fix all (d : list (string * value)) {struct d} : bool :=
             match d with
             | [] => true
             | (k, v) :: r =>
                 match assoc k d2 with
                 | Some v2 => value_eqb v v2
                 | None => false
                 end && all r
             end) d1
      | _ => false
      end
  end.

(** [a + b]: strings and lists concatenate, integers (and booleans) add. *)
Definition py_add (a b : value) : res value :=
  match a, b with
  | VStr x, VStr y => Ok (VStr (x ++ y))
  | VList x, VList y => Ok (VList (x ++ y))
  | VInt x, VInt y => Ok (VInt (x + y))
  | VInt x, VBool y => Ok (VInt (x + (if y then 1 else 0)))
  | VBool x, VInt y => Ok (VInt ((if x then 1 else 0) + y))
  | VBool x, VBool y => Ok (VInt ((if x then 1 else 0) + (if y then 1 else 0)))
  | _, _ => Raise TypeError
  end.

(** [len(v)]. *)
Definition py_len (v : value) : res value :=
  match v with
  | VStr s => Ok (VInt (Z.of_nat (String.length s)))
  | VList l => Ok (VInt (Z.of_nat (List.length l)))
  | VDict d => Ok (VInt (Z.of_nat (List.length d)))
  | _ => Raise TypeError
  end.

(** [v[k]] with a string key. *)
Definition py_getitem (v : value) (k : string) : res value :=
  match v with
  | VDict d =>
      match assoc k d with
      | Some x => Ok x
      | None => Raise KeyError
      end
  | _ => Raise TypeError
  end.

(** [v[k] = x] with a string key; the changed container is returned. *)
Definition py_setitem (v : value) (k : string) (x : value) : res value :=
  match v with
  | VDict d => Ok (VDict (assoc_set k x d))
  | _ => Raise TypeError
  end.

Fixpoint prefixb (p s : string) : bool :=
  match p, s with
  | EmptyString, _ => true
  | String a p', String b s' => Ascii.eqb a b && prefixb p' s'
  | String _ _, EmptyString => false
  end.

Fixpoint substringb (p s : string) : bool :=
  prefixb p s ||
  match s with
  | EmptyString => false
  | String _ s' => substringb p s'
  end.

(** [x in c]. *)
Definition py_in (x c : value) : res bool :=
  match c with
  | VList l => Ok (existsb (value_eqb x) l)
  | VDict d =>
      match x with
      | VStr k => Ok (match assoc k d with Some _ => true | None => false end)
      | VList _ | VDict _ => Raise TypeError   (* unhashable *)
      | _ => Ok false
      end
  | VStr s =>
      match x with
      | VStr p => Ok (substringb p s)
      | _ => Raise TypeError
      end
  | _ => Raise TypeError
  end.

(** [int(v)] in base ten: surrounding blanks, an optional sign, digits. *)
Definition is_blank (c : ascii) : bool :=
  let n := N_of_ascii c in ((9 <=? n) && (n <=? 13))%N || (n =? 32)%N.

Definition is_digit (c : ascii) : bool :=
  let n := N_of_ascii c in ((48 <=? n) && (n <=? 57))%N.

Fixpoint lstrip (s : string) : string :=
  match s with
  | String c r => if is_blank c then lstrip r else s
  | EmptyString => EmptyString
  end.

Fixpoint rstrip (s : string) : string :=
  match s with
  | EmptyString => EmptyString
  | String c r =>
      match rstrip r with
      | EmptyString => if is_blank c then EmptyString else String c EmptyString
      | r' => String c r'
      end
  end.

Fixpoint digits (acc : Z) (s : string) : option Z :=
  match s with
  | EmptyString => Some acc
  | String c r =>
      if is_digit c
      then digits (10 * acc + (Z.of_N (N_of_ascii c) - 48)) r
      else None
  end.

Definition number (s : string) : option Z :=
  match s with
  | EmptyString => None
  | _ => digits 0 s
  end.

Definition py_int (v : value) : res value :=
  match v with
  | VInt z => Ok (VInt z)
  | VBool b => Ok (VInt (if b then 1 else 0))
  | VStr s =>
      let literal :=
        match rstrip (lstrip s) with
        | String "-" r => option_map Z.opp (number r)
        | String "+" r => number r
        | t => number t
        end in
      match literal with
      | Some z => Ok (VInt z)
      | None => Raise ValueError
      end
  | _ => Raise TypeError
  end.

(** [v.a] on a module or class object. *)
Definition py_getattr (v : value) (a : string) : res value :=
  match v with
  | VObj n => Ok (VObj (n ++ "." ++ a))
  | _ => Raise AttributeError
  end.

(** ** The module's name space *)

Definition JOB_STATES : list string :=
  ["pending"; "running"; "failed"; "complete"].

Definition JOB_STATES_ALLOWED_MUTATE : list string :=
  ["pending"; "running"].

Definition JOB_TRANSITIONS : list string :=
  ["pending --> running"; "running --> failed"; "running --> complete"].

Definition strs (l : list string) : value := VList (map VStr l).

(** The names bound at module level once [jobs.py] has been executed: its
    imports, [log], the three tables, the function and the two classes. *)
Definition module_globals : list (string * value) :=
  [ ("logging", VObj "logging");
    ("datetime", VObj "datetime");
    ("log", VObj "log");
    ("base", VObj "base");
    ("JOB_STATES", strs JOB_STATES);
    ("JOB_STATES_ALLOWED_MUTATE", strs JOB_STATES_ALLOWED_MUTATE);
    ("JOB_TRANSITIONS", strs JOB_TRANSITIONS);
    ("validTransition", VObj "validTransition");
    ("Jobs", VObj "Jobs");
    ("Job", VObj "Job") ].

(** The names of Python 2.7's [__builtin__] module. *)
Definition builtins : list string :=
  [ "ArithmeticError"; "AssertionError"; "AttributeError"; "BaseException";
    "BufferError"; "BytesWarning"; "DeprecationWarning"; "EOFError";
    "Ellipsis"; "EnvironmentError"; "Exception"; "False";
    "FloatingPointError"; "FutureWarning"; "GeneratorExit"; "IOError";
    "ImportError"; "ImportWarning"; "IndentationError"; "IndexError";
    "KeyError"; "KeyboardInterrupt"; "LookupError"; "MemoryError";
    "NameError"; "None"; "NotImplemented"; "NotImplementedError"; "OSError";
    "OverflowError"; "PendingDeprecationWarning"; "ReferenceError";
    "RuntimeError"; "RuntimeWarning"; "StandardError"; "StopIteration";
    "SyntaxError"; "SyntaxWarning"; "SystemError"; "SystemExit"; "TabError";
    "True"; "TypeError"; "UnboundLocalError"; "UnicodeDecodeError";
    "UnicodeEncodeError"; "UnicodeError"; "UnicodeTranslateError";
    "UnicodeWarning"; "UserWarning"; "ValueError"; "Warning";
    "ZeroDivisionError"; "__debug__"; "__doc__"; "__import__"; "__name__";
    "__package__"; "abs"; "all"; "any"; "apply"; "basestring"; "bin"; "bool";
    "buffer"; "bytearray"; "bytes"; "callable"; "chr"; "classmethod"; "cmp";
    "coerce"; "compile"; "complex"; "copyright"; "credits"; "delattr";
    "dict"; "dir"; "divmod"; "enumerate"; "eval"; "execfile"; "exit"; "file";
    "filter"; "float"; "format"; "frozenset"; "getattr"; "globals";
    "hasattr"; "hash"; "help"; "hex"; "id"; "input"; "int"; "intern";
    "isinstance"; "issubclass"; "iter"; "len"; "license"; "list"; "locals";
    "long"; "map"; "max"; "memoryview"; "min"; "next"; "object"; "oct";
    "open"; "ord"; "pow"; "print"; "property"; "quit"; "range"; "raw_input";
    "reduce"; "reload"; "repr"; "reversed"; "round"; "set"; "setattr";
    "slice"; "sorted"; "staticmethod"; "str"; "sum"; "super"; "tuple";
    "type"; "unichr"; "unicode"; "vars"; "xrange"; "zip" ].

(** Reading a name that the function does not assign: the module's globals,
    then the builtins, else [NameError]. *)
Definition global (x : string) : res value :=
  match assoc x module_globals with
  | Some v => Ok v
  | None =>
      if existsb (String.eqb x) builtins then Ok (VObj x) else Raise NameError
  end.

(** ** State machine (line 35) *)

Definition validTransition (fromState toState : value) : res value :=
  rbind (py_add fromState (VStr " --> ")) (fun left =>
  rbind (global "tosState") (fun tosState =>
  rbind (py_add left tosState) (fun key =>
  rbind (global "JOB_TRANSITIONS") (fun table =>
  rbind (py_in key table) (fun b =>
  Ok (VBool b)))))).

(** ** The world of a handler and its monad *)

Definition doc : Type := list (string * value).

Record world : Type := mkWorld {
  jobs : list doc;          (* self.app.db.jobs, in natural order *)
  stdout : list string      (* lines printed so far *)
}.

Definition M (A : Type) : Type := world -> res A * world.

Definition ret {A} (a : A) : M A := fun w => (Ok a, w).

Definition bind {A B} (m : M A) (f : A -> M B) : M B :=
  fun w =>
    match m w with
    | (Ok a, w') => f a w'
    | (Raise e, w') => (Raise e, w')
    end.

Definition lift {A} (r : res A) : M A := fun w => (r, w).

Definition raise {A} (e : exn) : M A := lift (Raise e).

Declare Scope py_scope.
Delimit Scope py_scope with py.
Notation "x <- m ;; k" := (bind m (fun x => k))
  (at level 61, m at next level, right associativity) : py_scope.
Notation "m ;; k" := (bind m (fun _ => k))
  (at level 61, right associativity) : py_scope.
Local Open Scope py_scope.

(** [self.abort(code, detail)]: webapp2 raises the HTTP exception. *)
Definition abort {A} (code : Z) (detail : value) : M A :=
  raise (HTTPException code detail).

(** The [print] statement accepts any object; the handlers only ever hand it
    the result of a string concatenation. *)
Definition py_print (v : value) : M unit :=
  fun w =>
    match v with
    | VStr s => (Ok tt, mkWorld (jobs w) (stdout w ++ [s]))
    | _ => (Ok tt, mkWorld (jobs w) (stdout w ++ ["<object>"]))
    end.

(** ** The collection: an in-memory stand-in for the three pymongo calls

    pymongo and the MongoDB server are outside the repository.  The stand-in
    keeps the documents in a list and knows the one update operator the
    handlers use.  What it takes from the real store:

    - a document sent to the server is first encoded as BSON, and the encoder
      refuses an integer outside the signed 64-bit range (OverflowError) and
      an object it has no type for (InvalidDocument);
    - a filter matches a document when each of its fields is there with an
      equal value, and BSON equality keeps the types apart: a boolean is not
      equal to a number.  Query operators and matching inside arrays are not
      modelled; the handlers' filters are an [_id], which no stored document
      holds as an array, a state, and a whole job document;
    - the server is taken to be reachable. *)

Definition int64b (z : Z) : bool :=
  (- 2 ^ 63 <=? z) && (z <=? 2 ^ 63 - 1).

(** The exception the BSON encoder raises on a value, if any. *)
Fixpoint bson_error (v : value) : option exn :=
  match v with
  | VInt z => if int64b z then None else Some OverflowError
  | VObj _ => Some InvalidDocument
  | VList l =>
      (fix go (l : list value) : option exn :=
         match l with
         | [] => None
         | x :: r =>
             match bson_error x with
             | Some e => Some e
             | None => go r
             end
         end) l
  | VDict d =>
      (fix go (d : list (string * value)) : option exn :=
         match d with
         | [] => None
         | (_, x) :: r =>
             match bson_error x with
             | Some e => Some e
             | None => go r
             end
         end) d
  | VNone | VBool _ | VStr _ | VTime _ => None
  end.

(** Equality of two stored values: same type, same content, the fields of
    an embedded document in the same order. *)
Fixpoint bson_eqb (a b : value) {struct a} : bool :=
  match a with
  | VNone => match b with VNone => true | _ => false end
  | VBool x => match b with VBool y => Bool.eqb x y | _ => false end
  | VInt x => match b with VInt y => Z.eqb x y | _ => false end
  | VStr x => match b with VStr y => String.eqb x y | _ => false end
  | VTime x => match b with VTime y => Z.eqb x y | _ => false end
  | VObj x => match b with VObj y => String.eqb x y | _ => false end
  | VList l1 =>
      match b with
      | VList l2 =>
          (fix go (l1 l2 : list value) {struct l1} : bool :=
             match l1, l2 with
             | [], [] => true
             | x :: xs, y :: ys => bson_eqb x y && go xs ys
             | _, _ => false
             end) l1 l2
      | _ => false
      end
  | VDict d1 =>
      match b with
      | VDict d2 =>
          (fix go (d1 d2 : list (string * value)) {struct d1} : bool :=
             match d1, d2 with
             | [], [] => true
             | (k, x) :: xs, (k', y) :: ys =>
                 String.eqb k k' && bson_eqb x y && go xs ys
             | _, _ => false
             end) d1 d2
      | _ => false
      end
  end.

Definition matches (flt d : doc) : bool :=
  forallb (fun kv =>
             match assoc (fst kv) d with
             | Some v => bson_eqb (snd kv) v
             | None => false
             end) flt.

(** [validate_ok_for_update]: a non-empty mapping whose first key is an
    operator. *)
Definition validate_ok_for_update (update : value) : res doc :=
  match update with
  | VDict [] => Raise ValueError
  | VDict ((k, v) :: r) =>
      if prefixb "$" k then Ok ((k, v) :: r) else Raise ValueError
  | _ => Raise TypeError
  end.

(** The server applies the operators; a key that is not one of its operators
    is refused. *)
Fixpoint apply_operators (ops : doc) (d : doc) : res doc :=
  match ops with
  | [] => Ok d
  | (op, VDict fields) :: r =>
      if String.eqb op "$set"
      then apply_operators r
             (fold_left (fun acc kv => assoc_set (fst kv) (snd kv) acc) fields d)
      else Raise OperationFailure
  | _ :: _ => Raise OperationFailure
  end.

(** Replace the first document that satisfies [p], if the change succeeds. *)
Fixpoint update_first (p : doc -> bool) (f : doc -> res doc) (c : list doc)
  : res (option (doc * doc) * list doc) :=
  match c with
  | [] => Ok (None, [])
  | d :: r =>
      if p d
      then rbind (f d) (fun d' => Ok (Some (d, d'), d' :: r))
      else rbind (update_first p f r)
             (fun '(hit, r') => Ok (hit, d :: r'))
  end.

Definition find_one (flt : value) : M value :=
  fun w =>
    match flt with
    | VDict f =>
        match bson_error flt with
        | Some e => (Raise e, w)
        | None =>
            match find (matches f) (jobs w) with
            | Some d => (Ok (VDict d), w)
            | None => (Ok VNone, w)
            end
        end
    | _ => (Raise TypeError, w)
    end.

Definition update_one (flt update : value) : M value :=
  fun w =>
    match flt with
    | VDict f =>
        match validate_ok_for_update update with
        | Raise e => (Raise e, w)
        | Ok ops =>
            match bson_error (VList [flt; update]) with
            | Some e => (Raise e, w)
            | None =>
                match update_first (matches f) (apply_operators ops) (jobs w)
                with
                | Ok (_, c') =>
                    (Ok (VObj "UpdateResult"), mkWorld c' (stdout w))
                | Raise e => (Raise e, w)
                end
            end
        end
    | _ => (Raise TypeError, w)
    end.

(** The value a document is sorted by: a time or a number; a document
    without the field sorts lowest. *)
Definition sort_key (field : string) (d : doc) : option Z :=
  match assoc field d with
  | Some (VTime t) => Some t
  | Some (VInt z) => Some z
  | _ => None
  end.

Definition key_ltb (a b : option Z) : bool :=
  match a, b with
  | None, Some _ => true
  | Some x, Some y => x <? y
  | _, None => false
  end.

(** The document a sorted query meets first: the greatest key when the
    direction is negative, the least otherwise; among equal keys the one that
    comes first in the collection. *)
Fixpoint first_sorted (field : string) (direction : Z) (c : list doc)
  : option doc :=
  match c with
  | [] => None
  | d :: r =>
      match first_sorted field direction r with
      | None => Some d
      | Some e =>
          let better :=
            if direction <? 0
            then key_ltb (sort_key field d) (sort_key field e)
            else key_ltb (sort_key field e) (sort_key field d) in
          if better then Some e else Some d
      end
  end.

(** Replace the first occurrence of the document [old]. *)
Fixpoint replace_doc (old new : doc) (c : list doc) : list doc :=
  match c with
  | [] => []
  | d :: r =>
      if bson_eqb (VDict d) (VDict old) then new :: r
      else d :: replace_doc old new r
  end.

Definition find_one_and_update
    (flt update : value) (sort : list (string * Z)) (return_document : value)
  : M value :=
  fun w =>
    match flt with
    | VDict f =>
        match validate_ok_for_update update,
              bson_error (VList [flt; update]) with
        | Raise e, _ => (Raise e, w)
        | Ok _, Some e => (Raise e, w)
        | Ok ops, None =>
            let candidates := filter (matches f) (jobs w) in
            let chosen :=
              match sort with
              | (field, direction) :: _ => first_sorted field direction candidates
              | [] => hd_error candidates
              end in
            match chosen with
            | None => (Ok VNone, w)
            | Some d =>
                match apply_operators ops d with
                | Raise e => (Raise e, w)
                | Ok d' =>
                    let after :=
                      value_eqb return_document (VObj "ReturnDocument.AFTER")
                      || value_eqb return_document (VBool true) in
                    (Ok (VDict (if after then d' else d)),
                     mkWorld (replace_doc d d' (jobs w)) (stdout w))
                end
            end
        end
    | _ => (Raise TypeError, w)
    end.

(** Truth value of an object, as [not] and [and] test it. *)
Definition truthy (v : value) : bool :=
  match v with
  | VNone => false
  | VBool b => b
  | VInt z => negb (z =? 0)
  | VStr s => negb (String.eqb s "")
  | VList l => match l with [] => false | _ => true end
  | VDict d => match d with [] => false | _ => true end
  | VTime _ | VObj _ => true
  end.

(** The request, as far as the handlers read it: its body, decoded, or
    nothing when the body is not JSON. *)
Record request : Type := mkRequest {
  body : option value
}.

(** [self.request.json]. *)
Definition request_json (r : request) : M value :=
  lift (match body r with
        | Some v => Ok v
        | None => Raise ValueError
        end).

(** ** class Jobs: the /jobs routes *)

Module Jobs.

(** Line 46: [list(self.app.db.jobs.find())]. *)
Definition get : M value :=
  fun w => (Ok (VList (map VDict (jobs w))), w).

(** Line 50. *)
Definition count : M value :=
  fun w => (Ok (VInt (Z.of_nat (List.length (jobs w)))), w).

(** Lines 61 to 71.  The callee is looked up, then the two positional
    arguments are built, then the keyword arguments in the order written,
    and only then is the call made. *)
Definition next (now : Z) : M value :=
  let flt := VDict [("status", VStr "pending")] in
  datetime <- lift (global "datetime") ;;
  let update :=
    VDict [("$set", VDict [("status", VStr "running");
                           ("modified", VTime now)])] in
  let sort := [("modified", -1)] in
  ReturnDocument <- lift (global "ReturnDocument") ;;
  AFTER <- lift (py_getattr ReturnDocument "AFTER") ;;
  find_one_and_update flt update sort AFTER.

End Jobs.

(** ** class Job: the /jobs/<jid> routes *)

Module Job.

(** Line 78. *)
Definition get (_id : value) : M value :=
  n <- lift (py_int _id) ;;
  find_one (VDict [("_id", n)]).

(** Line 87: the read of the stored record. *)
Definition put_read (_id : value) : M value :=
  n <- lift (py_int _id) ;;
  find_one (VDict [("_id", n)]).

(** Line 89. *)
Definition put_print (mutation : value) : M unit :=
  fields <- lift (py_len mutation) ;;
  s <- lift (py_add (VStr "MUTATION HAS ") fields) ;;
  s' <- lift (py_add s (VStr " FIELDS")) ;;
  py_print s'.

(** The second argument of [self.abort] at line 92 is written
    ['Cannot mutate a job that is ' + job['state'] '.'], which is no
    expression of the language.  This is the reading taken for it: the
    concatenation of the three parts. *)
Definition line_92_detail (state : value) : res value :=
  rbind (py_add (VStr "Cannot mutate a job that is ") state)
        (fun s => py_add s (VStr ".")).

(** Lines 91 and 92: only a job in a state of JOB_STATES_ALLOWED_MUTATE
    passes.  [detail] is how the second argument of line 92 is evaluated
    from [job['state']]. *)
Definition put_gate_with (detail : value -> res value) (job : value)
  : M unit :=
  state <- lift (py_getitem job "state") ;;
  allowed <- lift (global "JOB_STATES_ALLOWED_MUTATE") ;;
  listed <- lift (py_in state allowed) ;;
  if negb listed then
    state' <- lift (py_getitem job "state") ;;
    s <- lift (detail state') ;;
    abort 404 s
  else ret tt.

Definition put_gate (job : value) : M unit :=
  put_gate_with line_92_detail job.

(** Lines 94 and 95: a requested state is checked against the table. *)
Definition put_transition (job mutation : value) : M unit :=
  requested <- lift (py_in (VStr "state") mutation) ;;
  if requested then
    _ <- lift (global "validTransition") ;;
    from <- lift (py_getitem job "state") ;;
    to <- lift (py_getitem mutation "state") ;;
    valid <- lift (validTransition from to) ;;
    if negb (truthy valid) then
      from' <- lift (py_getitem job "state") ;;
      s1 <- lift (py_add (VStr "Mutating job from ") from') ;;
      s2 <- lift (py_add s1 (VStr " to ")) ;;
      to' <- lift (py_getitem mutation "state") ;;
      s3 <- lift (py_add s2 to') ;;
      s4 <- lift (py_add s3 (VStr " not allowed.")) ;;
      abort 404 s4
    else ret tt
  else ret tt.

(** Lines 98 to 102: the time stamp and the write. *)
Definition put_write (now : Z) (job mutation : value) : M value :=
  _ <- lift (global "datetime") ;;
  mutation' <- lift (py_setitem mutation "timestamp" (VTime now)) ;;
  update_one job mutation' ;;
  ret VNone.

(** Lines 91 to 102, for a given evaluation of the argument of line 92. *)
Definition put_checked_with (detail : value -> res value)
    (now : Z) (job mutation : value) : M value :=
  put_gate_with detail job ;;
  put_transition job mutation ;;
  put_write now job mutation.

(** Lines 91 to 102. *)
Definition put_checked (now : Z) (job mutation : value) : M value :=
  put_checked_with line_92_detail now job mutation.

(** The handler from line 87 on, for a request whose body line 86 has
    decoded to [mutation]. *)
Definition put (now : Z) (mutation _id : value) : M value :=
  job <- put_read _id ;;
  put_print mutation ;;
  put_checked now job mutation.

(** The handler from line 86 on: [self.request.json] decodes the body, and
    raises ValueError on a body that is not JSON. *)
Definition put_request (now : Z) (r : request) (_id : value) : M value :=
  mutation <- request_json r ;;
  put now mutation _id.

(** [put] when other clients of the collection act between its read
    (line 87) and the rest of its body. *)
Definition put_interleaved (others : list doc -> list doc)
    (now : Z) (mutation _id : value) : M value :=
  job <- put_read _id ;;
  (fun w => (Ok tt, mkWorld (others (jobs w)) (stdout w))) ;;
  put_print mutation ;;
  put_checked now job mutation.

End Job.

(** ** What the specification says, for comparison *)

(** The transition table of the specification, read off its three edges. *)
Definition isValidTransition (from to : string) : bool :=
  match from, to with
  | "pending", "running" => true
  | "running", "failed" => true
  | "running", "complete" => true
  | _, _ => false
  end.

(** The error taxonomy of the specification. *)
Inductive job_error : Type :=
| NotFound
| NotMutable
| InvalidTransition
| ConflictingUpdate
| StoreUnavailable.

(** The error of the taxonomy that an HTTP status stands for. *)
Definition status_error (code : Z) : option job_error :=
  if code =? 404 then Some NotFound
  else if code =? 409 then Some ConflictingUpdate
  else if code =? 503 then Some StoreUnavailable
  else None.

(** The error a handler's outcome gives its caller.  A request is rejected
    with [self.abort]: the two messages of the handlers name the state
    machine's rejections, any other abort is read by its status.  An
    exception of the interpreter or of the driver goes through the handler
    unnamed. *)
Definition reported (r : res value) : option job_error :=
  match r with
  | Raise (HTTPException code (VStr detail)) =>
      if prefixb "Cannot mutate a job that is " detail then Some NotMutable
      else if prefixb "Mutating job from " detail then Some InvalidTransition
      else status_error code
  | Raise (HTTPException code _) => status_error code
  | _ => None
  end.

(** The [state] field of the stored job whose [_id] is [n]. *)
Definition stored_state (n : Z) (c : list doc) : option value :=
  match find (matches [("_id", VInt n)]) c with
  | Some d => assoc "state" d
  | None => None
  end.

(** The call's view of the job is stale: between its read and its write the
    other clients changed the state of the job it addresses. *)
Definition stale (others : list doc -> list doc) (_id : value) (w : world)
  : Prop :=
  exists n, py_int _id = Ok (VInt n) /\
            stored_state n (others (jobs w)) <> stored_state n (jobs w).

(** [N] engines poll [next], one request after the other; each request ends
    on its own, with a value or with an exception.  A call to [next] sends at
    most one request to the collection, so a concurrent run of the engines is
    one of these orders. *)
Fixpoint poll (nows : list Z) (w : world) : list (res value) * world :=
  match nows with
  | [] => ([], w)
  | now :: rest =>
      let '(r, w') := Jobs.next now w in
      let '(rs, w'') := poll rest w' in
      (r :: rs, w'')
  end.

(** The jobs an engine was handed. *)
Definition claimed (rs : list (res value)) : list value :=
  flat_map (fun r => match r with Ok (VDict d) => [VDict d] | _ => [] end) rs.

(** ** Sample collections *)

Definition job_doc (id : Z) (state : string) (modified : Z) : doc :=
  [("_id", VInt id); ("state", VStr state); ("modified", VTime modified)].

Definition empty_store : world := mkWorld [] [].

Definition one_pending : world := mkWorld [job_doc 1 "pending" 10] [].

Definition one_running : world := mkWorld [job_doc 1 "running" 10] [].

Definition one_complete : world := mkWorld [job_doc 1 "complete" 10] [].

Definition two_pending : world :=
  mkWorld [job_doc 1 "pending" 10; job_doc 2 "pending" 20] [].

(** Another engine reports job 1 complete. *)
Definition complete_job_1 (c : list doc) : list doc :=
  map (fun d =>
         if matches [("_id", VInt 1)] d then assoc_set "state" (VStr "complete") d
         else d) c.

(** * Properties *)

(** ** Name resolution *)

Lemma global_tosState : global "tosState" = Raise NameError.
Proof. reflexivity. Qed.

Lemma global_ReturnDocument : global "ReturnDocument" = Raise NameError.
Proof. reflexivity. Qed.

Lemma global_bound (x : string) (v : value) :
  assoc x module_globals = Some v -> global x = Ok v.
Proof. unfold global. intros ->. reflexivity. Qed.

(** ** The transition table and the check that reads it *)

(** The table itself holds the three edges of the specification: looked up
    with the key the function means to build, it agrees with
    [isValidTransition] on the four states. *)
Lemma JOB_TRANSITIONS_table (from to : string) :
  In from JOB_STATES -> In to JOB_STATES ->
  py_in (VStr (from ++ " --> " ++ to)) (strs JOB_TRANSITIONS)
  = Ok (isValidTransition from to).
Proof.
  unfold JOB_STATES. cbn [In]. intros Hf Ht.
  repeat match goal with
         | H : _ \/ _ |- _ => destruct H as [<- | H]
         | H : False |- _ => destruct H
         end; reflexivity.
Qed.

(** On strings the check never gets as far as the table. *)
Lemma validTransition_str (from to : string) :
  validTransition (VStr from) (VStr to) = Raise NameError.
Proof. reflexivity. Qed.

(** Whatever it is given, the check returns nothing. *)
Lemma validTransition_raises (fromState toState : value) :
  validTransition fromState toState = Raise NameError \/
  validTransition fromState toState = Raise TypeError.
Proof.
  unfold validTransition.
  destruct (py_add fromState (VStr " --> ")) as [left | e] eqn:E.
  - left. reflexivity.
  - right. destruct fromState; cbn in E; try discriminate; now inversion E.
Qed.

(** ** The monad *)

Lemma bind_ok {A B} (m : M A) (f : A -> M B) (w w' : world) (a : A) :
  m w = (Ok a, w') -> bind m f w = f a w'.
Proof. unfold bind. intros ->. reflexivity. Qed.

Lemma bind_raise {A B} (m : M A) (f : A -> M B) (w w' : world) (e : exn) :
  m w = (Raise e, w') -> bind m f w = (Raise e, w').
Proof. unfold bind. intros ->. reflexivity. Qed.

(** ** next *)

Lemma next_raises (now : Z) (w : world) :
  Jobs.next now w = (Raise NameError, w).
Proof. reflexivity. Qed.

Lemma poll_raises (nows : list Z) (w : world) :
  poll nows w = (map (fun _ => Raise NameError) nows, w).
Proof.
  induction nows as [| now rest IH]; cbn [poll map].
  - reflexivity.
  - rewrite next_raises, IH. reflexivity.
Qed.

Lemma claimed_none (nows : list Z) :
  claimed (map (fun _ => Raise NameError) nows) = [].
Proof. induction nows; cbn; auto. Qed.

(** ** put *)

Lemma py_int_cases (v : value) :
  (exists z, py_int v = Ok (VInt z)) \/
  py_int v = Raise ValueError \/ py_int v = Raise TypeError.
Proof.
  destruct v; cbn; eauto.
  match goal with |- context [match ?x with Some _ => _ | None => _ end] =>
    destruct x end; eauto.
Qed.

Lemma bson_error_id (n : Z) :
  bson_error (VDict [("_id", VInt n)])
  = if int64b n then None else Some OverflowError.
Proof. cbn [bson_error]. destruct (int64b n); reflexivity. Qed.

Lemma find_one_by_id (n : Z) (w : world) :
  (int64b n = true /\
   exists found, find_one (VDict [("_id", VInt n)]) w = (Ok found, w)) \/
  (int64b n = false /\
   find_one (VDict [("_id", VInt n)]) w = (Raise OverflowError, w)).
Proof.
  unfold find_one. rewrite bson_error_id.
  destruct (int64b n); [left | right]; split; try reflexivity.
  destruct (find (matches [("_id", VInt n)]) (jobs w)); eauto.
Qed.

(** The read leaves the world as it is; it fails on a route parameter that
    is no integer, and on one that the store cannot hold. *)
Lemma put_read_cases (_id : value) (w : world) :
  (exists n found, py_int _id = Ok (VInt n) /\ int64b n = true /\
                   Job.put_read _id w = (Ok found, w)) \/
  (exists n, py_int _id = Ok (VInt n) /\ int64b n = false /\
             Job.put_read _id w = (Raise OverflowError, w)) \/
  (py_int _id = Raise ValueError /\
   Job.put_read _id w = (Raise ValueError, w)) \/
  (py_int _id = Raise TypeError /\
   Job.put_read _id w = (Raise TypeError, w)).
Proof.
  unfold Job.put_read, bind, lift.
  destruct (py_int_cases _id) as [[z E] | [E | E]]; rewrite E.
  - destruct (find_one_by_id z w) as [[B [found F]] | [B F]]; rewrite F.
    + left. eauto 6.
    + right; left. eauto.
  - right; right; left; auto.
  - right; right; right; auto.
Qed.

(** Line 89 adds an integer to a string. *)
Lemma put_print_raises (mutation : value) (w : world) :
  Job.put_print mutation w = (Raise TypeError, w).
Proof. destruct mutation; reflexivity. Qed.

(** Hence no call of the handler returns, and none writes. *)
Lemma put_raises (now : Z) (mutation _id : value) (w : world) :
  Job.put now mutation _id w = (Raise TypeError, w) \/
  Job.put now mutation _id w = (Raise ValueError, w) \/
  Job.put now mutation _id w = (Raise OverflowError, w).
Proof.
  unfold Job.put.
  destruct (put_read_cases _id w)
    as [(n & found & _ & _ & R) | [(n & _ & _ & R) | [[_ R] | [_ R]]]].
  - left. rewrite (bind_ok _ _ _ _ _ R).
    apply bind_raise, put_print_raises.
  - right; right. apply bind_raise, R.
  - right; left. apply bind_raise, R.
  - left. apply bind_raise, R.
Qed.

Lemma put_numbered_raises (now n : Z) (mutation _id : value) (w : world) :
  py_int _id = Ok (VInt n) -> int64b n = true ->
  Job.put now mutation _id w = (Raise TypeError, w).
Proof.
  intros E B. unfold Job.put.
  destruct (put_read_cases _id w)
    as [(m & found & _ & _ & R) | [(m & E' & B' & _) | [[E' _] | [E' _]]]];
    try congruence.
  rewrite (bind_ok _ _ _ _ _ R). apply bind_raise, put_print_raises.
Qed.

(** Past line 89, the gate of line 91 turns a job in a terminal state away
    with the message of line 92. *)
Lemma put_gate_terminal (d : doc) (state : string) (w : world) :
  assoc "state" d = Some (VStr state) ->
  existsb (String.eqb state) JOB_STATES_ALLOWED_MUTATE = false ->
  Job.put_gate (VDict d) w
  = (Raise (HTTPException 404
              (VStr ("Cannot mutate a job that is " ++ state ++ "."))), w).
Proof.
  intros Hs Hn.
  unfold Job.put_gate, Job.put_gate_with, bind, lift, abort, raise,
    py_getitem.
  rewrite Hs. cbn.
  cbn in Hn. apply orb_false_elim in Hn as [H1 Hn].
  apply orb_false_elim in Hn as [H2 _].
  rewrite H1, H2. reflexivity.
Qed.

(** Past line 89, the write of line 102 hands pymongo a document with the
    plain key of line 98, which no document can be updated with. *)
Lemma assoc_set_In {A} (k : string) (v : A) (d : list (string * A)) :
  In (k, v) (assoc_set k v d).
Proof.
  induction d as [| [k' v'] r IH]; cbn.
  - auto.
  - destruct (String.eqb k k'); cbn; auto.
Qed.

Lemma apply_operators_plain_key (ops d : doc) (k : string) (v : value) :
  In (k, v) ops -> String.eqb k "$set" = false ->
  apply_operators ops d = Raise OperationFailure.
Proof.
  intros Hin Hk. revert d.
  induction ops as [| [op x] r IH]; intros d; [destruct Hin |].
  cbn. destruct Hin as [Heq | Hin].
  - inversion Heq; subst. rewrite Hk. destruct v; reflexivity.
  - destruct x; try reflexivity.
    destruct (String.eqb op "$set"); auto.
Qed.

Lemma update_first_refused (p : doc -> bool) (f : doc -> res doc)
    (c : list doc) (e : exn) :
  (forall d, f d = Raise e) ->
  update_first p f c = Ok (None, c) \/ update_first p f c = Raise e.
Proof.
  intros Hf. induction c as [| d r IH]; cbn.
  - auto.
  - destruct (p d).
    + rewrite Hf. auto.
    + destruct IH as [-> | ->]; auto.
Qed.

Lemma put_write_keeps_jobs (now : Z) (found mutation : value) (w : world) :
  jobs (snd (Job.put_write now found mutation w)) = jobs w.
Proof.
  unfold Job.put_write, bind, lift. cbn.
  destruct mutation; cbn; try reflexivity.
  unfold update_one.
  destruct found; try reflexivity.
  destruct (validate_ok_for_update _) as [ops | e] eqn:V; [| reflexivity].
  assert (Hops : ops = assoc_set "timestamp" (VTime now) d).
  { unfold validate_ok_for_update in V.
    destruct (assoc_set "timestamp" (VTime now) d) as [| [k v] r];
      [discriminate |].
    destruct (prefixb "$" k); now inversion V. }
  destruct (bson_error _); [reflexivity |].
  destruct (update_first_refused (matches d0) (apply_operators ops) (jobs w)
              OperationFailure) as [-> | ->]; try reflexivity.
  intros x. subst ops.
  apply (apply_operators_plain_key _ _ "timestamp" (VTime now)).
  - apply assoc_set_In.
  - reflexivity.
Qed.

(** ** The claims *)

(** C1: with exactly one pending job in the collection and N engines polling
    [next], one engine should be handed the job and the others told that
    there is no work.  On the code every one of the N calls raises
    [NameError], the job stays pending and no engine is handed anything. *)
Theorem poll_one_pending_claims_nothing (nows : list Z) :
  poll nows one_pending = (map (fun _ => Raise NameError) nows, one_pending)
  /\ claimed (fst (poll nows one_pending)) = [].
Proof.
  rewrite poll_raises. split; [reflexivity | apply claimed_none].
Qed.

(** C2: the transition check should answer true exactly on the three edges of
    the table and false elsewhere, without failing.  On the edge
    pending -> running, where the table says true, the code raises
    [NameError]: it reads the unbound name [tosState]. *)
Theorem validTransition_pending_running_raises :
  isValidTransition "pending" "running" = true
  /\ validTransition (VStr "pending") (VStr "running") = Raise NameError.
Proof. split; reflexivity. Qed.


(** C4: an accepted mutation (the job exists and is running, no state is
    requested) should be merged into the record and [modified] stamped.  The
    code raises [TypeError] at line 89 and writes nothing; lines 91 to 102 on
    their own end in pymongo's [ValueError] for an update without operator,
    again with nothing written. *)
Theorem put_accepted_mutation_raises :
  Job.put 50 (VDict [("payload", VStr "x")]) (VStr "1") one_running
  = (Raise TypeError, one_running)
  /\ Job.put_checked 50 (VDict (job_doc 1 "running" 10))
       (VDict [("payload", VStr "x")]) one_running
     = (Raise ValueError, one_running).
Proof. split; reflexivity. Qed.

(** C5: a mutation of a job in a terminal state should be rejected as not
    mutable.  For [{state: failed}] against a complete job the code raises
    [TypeError] at line 89, which is not that rejection; the gate of lines 91
    and 92, which would give it, is never reached. *)
Theorem put_on_complete_job_raises :
  Job.put 50 (VDict [("state", VStr "failed")]) (VStr "1") one_complete
  = (Raise TypeError, one_complete)
  /\ reported (fst (Job.put 50 (VDict [("state", VStr "failed")]) (VStr "1")
                      one_complete)) <> Some NotMutable
  /\ reported (fst (Job.put_checked 50 (VDict (job_doc 1 "complete" 10))
                      (VDict [("state", VStr "failed")]) one_complete))
     = Some NotMutable.
Proof.
  split; [reflexivity |]. split; [discriminate | reflexivity].
Qed.

(** C6: a requested state that is not a valid transition from the stored one
    should be rejected as such, naming both states.  For [{state: complete}]
    against a pending job the code raises [TypeError] at line 89; lines 91 to
    102 on their own raise [NameError] inside [validTransition].  Neither is
    the rejection of line 95. *)
Theorem put_pending_to_complete_raises :
  Job.put 50 (VDict [("state", VStr "complete")]) (VStr "1") one_pending
  = (Raise TypeError, one_pending)
  /\ reported (fst (Job.put 50 (VDict [("state", VStr "complete")]) (VStr "1")
                      one_pending)) <> Some InvalidTransition
  /\ Job.put_checked 50 (VDict (job_doc 1 "pending" 10))
       (VDict [("state", VStr "complete")]) one_pending
     = (Raise NameError, one_pending).
Proof.
  split; [reflexivity |]. split; [discriminate | reflexivity].
Qed.

(** C7: a write against a stale state should not apply, and the caller
    should be told of the conflict.  Job 1 is running when the call reads it
    and another engine completes it before the call goes on.  The call is
    told nothing of the kind: it raises [TypeError] at line 89, as it does
    when nothing interferes.  Lines 91 to 102 on their own, given the job as
    it was read and the collection as the other engine left it, raise
    [NameError] inside [validTransition] for a requested state and pymongo's
    [ValueError] for a mutation without one; the result of [update_one], the
    only trace of a lost race, is discarded at line 102. *)
Theorem put_stale_raises :
  stale complete_job_1 (VStr "1") one_running
  /\ Job.put_interleaved complete_job_1 50
       (VDict [("state", VStr "failed")]) (VStr "1") one_running
     = (Raise TypeError, one_complete)
  /\ Job.put 50 (VDict [("state", VStr "failed")]) (VStr "1") one_running
     = (Raise TypeError, one_running)
  /\ Job.put_checked 50 (VDict (job_doc 1 "running" 10))
       (VDict [("state", VStr "failed")]) one_complete
     = (Raise NameError, one_complete)
  /\ Job.put_checked 50 (VDict (job_doc 1 "running" 10))
       (VDict [("payload", VStr "x")]) one_complete
     = (Raise ValueError, one_complete).
Proof.
  split.
  - exists 1. split; [reflexivity | vm_compute; discriminate].
  - repeat split.
Qed.

(** C8: a mutation that addresses an id absent from the collection should
    fail with a not-found error.  For id 7 the read of line 87 yields [None]
    and the code raises [TypeError] at line 89; lines 91 to 102 on their own
    raise [TypeError] as well, subscripting [None] at line 91.  The
    collection is untouched. *)
Theorem put_absent_id_raises :
  Job.put_read (VStr "7") one_running = (Ok VNone, one_running)
  /\ Job.put 50 (VDict [("payload", VStr "x")]) (VStr "7") one_running
     = (Raise TypeError, one_running)
  /\ reported (fst (Job.put 50 (VDict [("payload", VStr "x")]) (VStr "7")
                      one_running)) <> Some NotFound
  /\ Job.put_checked 50 VNone (VDict [("payload", VStr "x")]) one_running
     = (Raise TypeError, one_running).
Proof.
  split; [reflexivity |]. split; [reflexivity |].
  split; [discriminate | reflexivity].
Qed.

(** C9: [next] should hand out the pending job modified last, and report
    that there is no work, as a success, when none is pending.  On the empty
    collection the code raises [NameError] instead of returning [None]; with
    two pending jobs it raises too and hands out neither. *)
Theorem next_empty_store_raises (now : Z) :
  Jobs.next now empty_store = (Raise NameError, empty_store)
  /\ Jobs.next now two_pending = (Raise NameError, two_pending).
Proof. split; reflexivity. Qed.

(** C10: the module binds no [ReturnDocument], and the interpreter has no
    builtin of that name; [next] evaluates the name before it calls the
    collection, so on every collection the call raises [NameError], returns
    neither a job nor [None], and leaves the collection as it was. *)
Theorem next_always_NameError :
  assoc "ReturnDocument" module_globals = None
  /\ existsb (String.eqb "ReturnDocument") builtins = false
  /\ forall (now : Z) (w : world), Jobs.next now w = (Raise NameError, w).
Proof.
  split; [reflexivity |]. split; [reflexivity |].
  intros now w. apply next_raises.
Qed.

(** * Further properties of the module *)

(** ** The tables (lines 14 to 31) *)

(** A key [from ++ " --> " ++ to] that equals one of the three texts of the
    table fixes both of its parts.  The proof walks [from] one character at
    a time: before the seventh it cannot stop, after it the arrow no longer
    fits. *)
Ltac key_stops_nowhere H from :=
  repeat (destruct from as [| ? from]; cbn in H;
          [ discriminate H
          | first [ discriminate H | injection H as ? H; subst ] ]).

Ltac key_stops_after_seven H from :=
  do 7 (destruct from as [| ? from]; cbn in H;
        [ discriminate H | injection H as ? H; subst ]);
  destruct from as [| ? from]; cbn in H;
  [ injection H as H; auto
  | exfalso; injection H as ? H; subst; key_stops_nowhere H from ].

Lemma key_pending_running (from to : string) :
  from ++ " --> " ++ to = "pending --> running" ->
  from = "pending" /\ to = "running".
Proof. intros H. key_stops_after_seven H from. Qed.

Lemma key_running_failed (from to : string) :
  from ++ " --> " ++ to = "running --> failed" ->
  from = "running" /\ to = "failed".
Proof. intros H. key_stops_after_seven H from. Qed.

Lemma key_running_complete (from to : string) :
  from ++ " --> " ++ to = "running --> complete" ->
  from = "running" /\ to = "complete".
Proof. intros H. key_stops_after_seven H from. Qed.

(** Membership of a key in the table, as line 36 tests it. *)
Lemma key_in_table (from to : string) :
  py_in (VStr (from ++ " --> " ++ to)) (strs JOB_TRANSITIONS) = Ok true ->
  (from = "pending" /\ to = "running") \/
  (from = "running" /\ to = "failed") \/
  (from = "running" /\ to = "complete").
Proof.
  cbn. intros H. injection H as H.
  repeat (apply orb_true_iff in H; destruct H as [H | H]);
    try discriminate H; apply String.eqb_eq in H.
  - left. now apply key_pending_running.
  - right; left. now apply key_running_failed.
  - right; right. now apply key_running_complete.
Qed.

(** X1: whatever two strings the key is built from, it is in
    JOB_TRANSITIONS exactly for the pairs pending/running, running/failed
    and running/complete; no other pair of strings concatenates to one of
    the three entries. *)
Theorem transition_key_listed_iff (from to : string) :
  py_in (VStr (from ++ " --> " ++ to)) (strs JOB_TRANSITIONS) = Ok true <->
  (from = "pending" /\ to = "running") \/
  (from = "running" /\ to = "failed") \/
  (from = "running" /\ to = "complete").
Proof.
  split.
  - apply key_in_table.
  - intros [[-> ->] | [[-> ->] | [-> ->]]]; reflexivity.
Qed.

(** X2: the states a listed transition leaves are exactly the states of
    JOB_STATES_ALLOWED_MUTATE: the gate of line 91 stops no job that still
    has a transition to make, and lets none through that has none. *)
Theorem transitions_leave_mutable_states (from : string) :
  (exists to,
      py_in (VStr (from ++ " --> " ++ to)) (strs JOB_TRANSITIONS) = Ok true)
  <-> In from JOB_STATES_ALLOWED_MUTATE.
Proof.
  split.
  - intros [to H]. apply key_in_table in H.
    destruct H as [[-> _] | [[-> _] | [-> _]]]; cbn; auto.
  - cbn. intros [<- | [<- | []]].
    + exists "running". reflexivity.
    + exists "failed". reflexivity.
Qed.

(** X3: two listed transitions in a row are pending to running and then
    running to failed or to complete; so a job makes at most two, and every
    state a transition reaches is one of JOB_STATES. *)
Theorem consecutive_transitions (a b c : string) :
  py_in (VStr (a ++ " --> " ++ b)) (strs JOB_TRANSITIONS) = Ok true ->
  py_in (VStr (b ++ " --> " ++ c)) (strs JOB_TRANSITIONS) = Ok true ->
  a = "pending" /\ b = "running" /\ (c = "failed" \/ c = "complete")
  /\ ~ In c JOB_STATES_ALLOWED_MUTATE /\ In c JOB_STATES.
Proof.
  intros Hab Hbc. apply key_in_table in Hab, Hbc.
  destruct Hab as [[-> ->] | [[-> ->] | [-> ->]]];
    destruct Hbc as [[E ->] | [[E ->] | [E ->]]]; try discriminate E;
    (split; [reflexivity |]); (split; [reflexivity |]);
    (split; [auto |]); cbn; split; try tauto;
    intros [H | [H | []]]; discriminate H.
Qed.

Lemma consecutive_transitions_witness :
  "pending" = "pending" /\ "running" = "running"
  /\ ("failed" = "failed" \/ "failed" = "complete")
  /\ ~ In "failed" JOB_STATES_ALLOWED_MUTATE /\ In "failed" JOB_STATES.
Proof.
  apply (consecutive_transitions "pending" "running" "failed");
    reflexivity.
Defined.

Lemma validTransition_fails (fromState toState : value) :
  validTransition fromState toState
  = Raise (match fromState with VStr _ => NameError | _ => TypeError end).
Proof. destruct fromState; reflexivity. Qed.

(** X4: on every pair of arguments the check of line 36 raises: NameError
    when the first argument is a string, TypeError (from the concatenation)
    when it is anything else.  It returns neither true nor false. *)
Theorem validTransition_outcome (fromState toState : value) :
  validTransition fromState toState
  = Raise (match fromState with VStr _ => NameError | _ => TypeError end)
  /\ forall answer, validTransition fromState toState <> Ok answer.
Proof.
  rewrite validTransition_fails. split; [reflexivity | discriminate].
Qed.

(** ** The steps of put (lines 91 to 102) *)

Lemma lift_world {A} (r : res A) (w : world) : snd (lift r w) = w.
Proof. reflexivity. Qed.

Lemma bind_world {A B} (m : M A) (f : A -> M B) (w : world) :
  (forall w0, snd (m w0) = w0) ->
  (forall a w0, snd (f a w0) = w0) ->
  snd (bind m f w) = w.
Proof.
  intros Hm Hf. unfold bind.
  specialize (Hm w). destruct (m w) as [[a | e] w1]; cbn in Hm; subst w1.
  - apply Hf.
  - reflexivity.
Qed.

Ltac keeps_world :=
  repeat first
    [ apply lift_world
    | reflexivity
    | apply bind_world; intros
    | match goal with |- context [if ?b then _ else _] => destruct b end ].

Lemma put_gate_with_world (detail : value -> res value) (found : value)
    (w : world) :
  snd (Job.put_gate_with detail found w) = w.
Proof. unfold Job.put_gate_with, abort, raise, ret. keeps_world. Qed.

Lemma put_gate_world (found : value) (w : world) :
  snd (Job.put_gate found w) = w.
Proof. apply put_gate_with_world. Qed.

Lemma put_transition_world (found mutation : value) (w : world) :
  snd (Job.put_transition found mutation w) = w.
Proof. unfold Job.put_transition, abort, raise, ret. keeps_world. Qed.

Lemma update_one_plain_key_world
    (flt : value) (d : doc) (k : string) (v : value) (w : world) :
  In (k, v) d -> String.eqb k "$set" = false ->
  snd (update_one flt (VDict d) w) = w.
Proof.
  intros Hin Hk. unfold update_one.
  destruct flt; try reflexivity.
  destruct (validate_ok_for_update (VDict d)) as [ops | e] eqn:V;
    [| reflexivity].
  assert (ops = d) as ->.
  { unfold validate_ok_for_update in V.
    destruct d as [| [k0 v0] r]; [discriminate |].
    destruct (prefixb "$" k0); now inversion V. }
  destruct (bson_error _); [reflexivity |].
  destruct (update_first_refused (matches d0) (apply_operators d) (jobs w)
              OperationFailure) as [-> | ->]; cbn.
  - intros x. now apply (apply_operators_plain_key d x k v).
  - destruct w; reflexivity.
  - reflexivity.
Qed.

Lemma put_write_world (now : Z) (found mutation : value) (w : world) :
  snd (Job.put_write now found mutation w) = w.
Proof.
  unfold Job.put_write.
  apply bind_world; [intros; apply lift_world | intros _ w0].
  destruct mutation; try reflexivity.
  cbn [py_setitem]. unfold bind at 1, lift at 1.
  apply bind_world; [| reflexivity].
  intros w1.
  apply (update_one_plain_key_world found _ "timestamp" (VTime now)).
  - apply assoc_set_In.
  - reflexivity.
Qed.

Lemma allowed_string (s : string) :
  existsb (value_eqb (VStr s)) (map VStr JOB_STATES_ALLOWED_MUTATE) = true
  <-> In s JOB_STATES_ALLOWED_MUTATE.
Proof.
  cbn. rewrite orb_false_r, orb_true_iff, !String.eqb_eq.
  split; intros [H | H]; auto.
  - destruct H as [H | []]; auto.
Qed.

Lemma put_gate_with_passes (detail : value -> res value)
    (d : doc) (s : string) (w : world) :
  assoc "state" d = Some (VStr s) -> In s JOB_STATES_ALLOWED_MUTATE ->
  Job.put_gate_with detail (VDict d) w = (Ok tt, w).
Proof.
  intros Hst Hin. apply allowed_string in Hin.
  unfold Job.put_gate_with, bind, lift, abort, raise, ret.
  cbn [py_getitem]. rewrite Hst.
  change (global "JOB_STATES_ALLOWED_MUTATE")
    with (Ok (strs JOB_STATES_ALLOWED_MUTATE)).
  cbn [strs py_in]. rewrite Hin. reflexivity.
Qed.

Lemma put_gate_passes (d : doc) (s : string) (w : world) :
  assoc "state" d = Some (VStr s) -> In s JOB_STATES_ALLOWED_MUTATE ->
  Job.put_gate (VDict d) w = (Ok tt, w).
Proof. apply put_gate_with_passes. Qed.

(** X5: the gate of lines 91 and 92 lets a job through exactly when the job
    is a document whose [state] is the string pending or the string running;
    in that case, as in every other, it leaves the collection alone. *)
Theorem put_gate_passes_iff (found : value) (w w' : world) :
  Job.put_gate found w = (Ok tt, w') <->
  w' = w /\
  exists d s, found = VDict d /\ assoc "state" d = Some (VStr s)
              /\ In s JOB_STATES_ALLOWED_MUTATE.
Proof.
  split.
  - intros H.
    assert (Hw : w' = w).
    { pose proof (put_gate_world found w) as K. rewrite H in K.
      exact K. }
    split; [exact Hw |].
    unfold Job.put_gate, Job.put_gate_with, bind, lift, abort, raise, ret
      in H.
    destruct found; try discriminate H.
    cbn [py_getitem] in H.
    destruct (assoc "state" d) as [st |] eqn:Hst; [| discriminate H].
    exists d.
    destruct st; try (cbn in H; discriminate H).
    exists s. split; [reflexivity |]. split; [exact Hst |].
    apply allowed_string.
    change (global "JOB_STATES_ALLOWED_MUTATE")
      with (Ok (strs JOB_STATES_ALLOWED_MUTATE)) in H.
    cbn [strs py_in] in H.
    destruct (existsb (value_eqb (VStr s)) (map VStr JOB_STATES_ALLOWED_MUTATE));
      [reflexivity | cbn in H; discriminate H].
  - intros (-> & d & s & -> & Hst & Hin).
    now apply (put_gate_passes d s).
Qed.

(** X6: a job whose [state] is a string outside
    JOB_STATES_ALLOWED_MUTATE is never let through lines 91 to 102, whatever
    the mutation asks for and however the second argument of line 92 is
    evaluated: the request ends in the abort of line 92, with status 404 and
    the value of that argument, or in the exception that evaluating the
    argument raises.  The mutation is not looked at and nothing is
    written. *)
Theorem put_checked_with_terminal
    (detail : value -> res value) (now : Z) (d : doc) (state : string)
    (mutation : value) (w : world) :
  assoc "state" d = Some (VStr state) ->
  ~ In state JOB_STATES_ALLOWED_MUTATE ->
  Job.put_checked_with detail now (VDict d) mutation w
  = (Raise (match detail (VStr state) with
            | Ok s => HTTPException 404 s
            | Raise e => e
            end), w).
Proof.
  intros Hst Hn. unfold Job.put_checked_with.
  apply bind_raise.
  unfold Job.put_gate_with, bind, lift, abort, raise, ret.
  cbn [py_getitem]. rewrite Hst.
  change (global "JOB_STATES_ALLOWED_MUTATE")
    with (Ok (strs JOB_STATES_ALLOWED_MUTATE)).
  cbn [strs py_in].
  destruct (existsb (value_eqb (VStr state))
              (map VStr JOB_STATES_ALLOWED_MUTATE)) eqn:E.
  - exfalso. apply Hn. now apply allowed_string.
  - cbn [negb]. destruct (detail (VStr state)); reflexivity.
Qed.

Lemma put_checked_with_terminal_witness :
  Job.put_checked_with (py_add (VStr "Cannot mutate a job that is ")) 50
    (VDict (job_doc 1 "failed" 10)) (VDict [("payload", VStr "x")])
    one_running
  = (Raise (HTTPException 404 (VStr "Cannot mutate a job that is failed")),
     one_running).
Proof.
  apply (put_checked_with_terminal
           (py_add (VStr "Cannot mutate a job that is ")) 50
           (job_doc 1 "failed" 10) "failed").
  - reflexivity.
  - cbn. intros [H | [H | []]]; discriminate H.
Defined.

Lemma py_getitem_error (v : value) (k : string) (e : exn) :
  py_getitem v k = Raise e -> e = KeyError \/ e = TypeError.
Proof.
  destruct v; cbn; try (intros H; injection H as <-; auto).
  destruct (assoc k d); intros H; [discriminate H | injection H as <-; auto].
Qed.

Lemma py_in_error (x c : value) (e : exn) :
  py_in x c = Raise e -> e = TypeError.
Proof.
  destruct c; cbn; intros H; try discriminate H;
    try (now injection H as <-);
    destruct x; try discriminate H; now injection H as <-.
Qed.

(** X7: the step of lines 94 and 95 passes exactly the mutations in which
    no [state] is found; one that asks for a state, valid or not, ends in an
    exception of the interpreter.  The 404 of line 95 is never raised, and
    the collection is left alone. *)
Theorem put_transition_outcome (found mutation : value) (w : world) :
  snd (Job.put_transition found mutation w) = w
  /\ (fst (Job.put_transition found mutation w) = Ok tt
      <-> py_in (VStr "state") mutation = Ok false)
  /\ forall code detail,
       fst (Job.put_transition found mutation w)
       <> Raise (HTTPException code detail).
Proof.
  split; [apply put_transition_world |].
  unfold Job.put_transition, bind, lift, abort, raise, ret.
  destruct (py_in (VStr "state") mutation) as [[|] | e] eqn:P; cbn [fst].
  - change (global "validTransition") with (Ok (VObj "validTransition")).
    cbv iota beta.
    destruct (py_getitem found "state") as [from | e1] eqn:G1; cbn [fst].
    + destruct (py_getitem mutation "state") as [to | e2] eqn:G2; cbn [fst].
      * rewrite validTransition_fails. cbn [fst].
        split; [split; discriminate |].
        intros code detail. destruct from; discriminate.
      * split; [split; discriminate |].
        intros code detail H. injection H as ->.
        apply py_getitem_error in G2 as [G2 | G2]; discriminate G2.
    + split; [split; discriminate |].
      intros code detail H. injection H as ->.
      apply py_getitem_error in G1 as [G1 | G1]; discriminate G1.
  - split; [split; reflexivity |]. discriminate.
  - split; [split; discriminate |].
    intros code detail H. injection H as ->.
    apply py_in_error in P. discriminate P.
Qed.

(** X8: no change of state gets through lines 91 to 102.  For a job in
    pending or running and a mutation that carries a [state], whichever
    state it asks for, the check of line 94 raises NameError; the request is
    neither accepted nor refused with the message of line 95, and nothing is
    written. *)
Theorem put_checked_state_request
    (now : Z) (d m : doc) (s : string) (to : value) (w : world) :
  assoc "state" d = Some (VStr s) ->
  In s JOB_STATES_ALLOWED_MUTATE ->
  assoc "state" m = Some to ->
  Job.put_checked now (VDict d) (VDict m) w = (Raise NameError, w).
Proof.
  intros Hs Hin Hm. unfold Job.put_checked, Job.put_checked_with.
  assert (G : Job.put_gate_with Job.line_92_detail (VDict d) w = (Ok tt, w)).
  { now apply (put_gate_with_passes _ d s). }
  rewrite (bind_ok _ _ _ _ _ G).
  apply bind_raise.
  unfold Job.put_transition, bind, lift.
  cbn [py_in py_getitem]. rewrite Hm, Hs.
  change (global "validTransition") with (Ok (VObj "validTransition")).
  cbv iota beta. rewrite validTransition_fails. reflexivity.
Qed.

Lemma put_checked_state_request_witness :
  Job.put_checked 50 (VDict (job_doc 1 "pending" 10))
    (VDict [("state", VStr "running")]) one_pending
  = (Raise NameError, one_pending).
Proof.
  apply (put_checked_state_request 50 (job_doc 1 "pending" 10)
           [("state", VStr "running")] "pending" (VStr "running")).
  - reflexivity.
  - cbn. auto.
  - reflexivity.
Defined.

Lemma update_first_found (p : doc -> bool) (f : doc -> res doc)
    (c : list doc) (e : exn) :
  (forall d, f d = Raise e) -> existsb p c = true ->
  update_first p f c = Raise e.
Proof.
  intros Hf. induction c as [| d r IH]; cbn; [discriminate |].
  destruct (p d); cbn.
  - intros _. now rewrite Hf.
  - intros H. now rewrite (IH H).
Qed.

Lemma bson_error_kinds :
  forall (v : value) (e : exn),
    bson_error v = Some e -> e = OverflowError \/ e = InvalidDocument.
Proof.
  fix IH 1. intros v e. destruct v; cbn [bson_error]; try discriminate.
  - destruct (int64b z); [discriminate | intros H; injection H as <-; auto].
  - induction l as [| x r IHr]; [discriminate |].
    destruct (bson_error x) as [e' |] eqn:E; [| exact IHr].
    intros H. injection H as <-. exact (IH x e' E).
  - induction d as [| [k x] r IHr]; [discriminate |].
    destruct (bson_error x) as [e' |] eqn:E; [| exact IHr].
    intros H. injection H as <-. exact (IH x e' E).
  - intros H. injection H as <-. auto.
Qed.

Lemma bson_error_stamped (m : doc) (k : string) (t : Z) :
  bson_error (VDict m) = None ->
  bson_error (VDict (assoc_set k (VTime t) m)) = None.
Proof.
  induction m as [| [k' x] r IH]; [reflexivity |].
  cbn [assoc_set]. destruct (String.eqb k k').
  - cbn [bson_error]. destruct (bson_error x); [discriminate | auto].
  - cbn [bson_error] in *. destruct (bson_error x); [discriminate | auto].
Qed.

(** X9: the write of lines 98 to 102 cannot succeed on a job that is in the
    collection.  When a stored document matches the job that was read, the
    call to update_one raises and the stored documents stay as they were:
    the update it is given carries the plain key [timestamp], which pymongo
    (ValueError) or the server (OperationFailure) refuses, unless the encoder
    has refused the job or the mutation before that (OverflowError,
    InvalidDocument).  For a job and a mutation that the encoder accepts the
    exception is one of the first two. *)
Theorem put_write_found_raises
    (now : Z) (d m : doc) (w : world) :
  existsb (matches d) (jobs w) = true ->
  exists e, Job.put_write now (VDict d) (VDict m) w = (Raise e, w)
            /\ (e = ValueError \/ e = OperationFailure
                \/ e = OverflowError \/ e = InvalidDocument)
            /\ (bson_error (VDict d) = None -> bson_error (VDict m) = None ->
                e = ValueError \/ e = OperationFailure).
Proof.
  intros Hfound. unfold Job.put_write, bind, lift.
  change (global "datetime") with (Ok (VObj "datetime")).
  cbn [py_setitem]. unfold update_one.
  destruct (validate_ok_for_update
              (VDict (assoc_set "timestamp" (VTime now) m)))
    as [ops | e] eqn:V.
  - assert (ops = assoc_set "timestamp" (VTime now) m) as ->.
    { unfold validate_ok_for_update in V.
      destruct (assoc_set "timestamp" (VTime now) m) as [| [k0 v0] r];
        [discriminate |].
      destruct (prefixb "$" k0); now inversion V. }
    destruct (bson_error
                (VList [VDict d;
                        VDict (assoc_set "timestamp" (VTime now) m)]))
      as [e |] eqn:B.
    + exists e. split; [reflexivity |]. split.
      * right; right. exact (bson_error_kinds _ e B).
      * intros Hd Hm. exfalso.
        apply (bson_error_stamped m "timestamp" now) in Hm.
        change (match bson_error (VDict d) with
                | Some e0 => Some e0
                | None =>
                    match bson_error
                            (VDict (assoc_set "timestamp" (VTime now) m)) with
                    | Some e0 => Some e0
                    | None => None
                    end
                end = Some e) in B.
        rewrite Hd, Hm in B. discriminate B.
    + rewrite (update_first_found _ _ _ OperationFailure).
      * exists OperationFailure. cbn. auto.
      * intros x.
        apply (apply_operators_plain_key _ x "timestamp" (VTime now));
          [apply assoc_set_In | reflexivity].
      * exact Hfound.
  - exists e. split; [reflexivity |].
    assert (e = ValueError) as ->; [| auto].
    unfold validate_ok_for_update in V.
    destruct (assoc_set "timestamp" (VTime now) m) as [| [k0 v0] r];
      [now inversion V |].
    destruct (prefixb "$" k0); [discriminate | now inversion V].
Qed.

Lemma put_write_found_raises_witness :
  exists e,
    Job.put_write 50 (VDict (job_doc 1 "running" 10))
      (VDict [("payload", VStr "x")]) one_running
    = (Raise e, one_running)
    /\ (e = ValueError \/ e = OperationFailure
        \/ e = OverflowError \/ e = InvalidDocument)
    /\ (bson_error (VDict (job_doc 1 "running" 10)) = None ->
        bson_error (VDict [("payload", VStr "x")]) = None ->
        e = ValueError \/ e = OperationFailure).
Proof.
  apply (put_write_found_raises 50 (job_doc 1 "running" 10)
           [("payload", VStr "x")] one_running).
  reflexivity.
Defined.

(** X10: lines 91 to 102 never change the collection and never print,
    whatever job and mutation they are given and whether they end in an
    abort, in an exception or normally. *)
Theorem put_checked_keeps_world
    (now : Z) (found mutation : value) (w : world) :
  snd (Job.put_checked now found mutation w) = w.
Proof.
  unfold Job.put_checked, Job.put_checked_with.
  apply bind_world; [apply put_gate_with_world | intros _ w1].
  apply bind_world; [apply put_transition_world | intros _ w2].
  apply put_write_world.
Qed.

(** X11: no request to put is served.  Whatever the body, the route
    parameter, the clock and the collection, the handler ends in an
    exception that is not an HTTP abort of its own: it returns no value, and
    it leaves the collection and the output as they were. *)
Theorem put_request_never_served
    (now : Z) (r : request) (_id : value) (w : world) :
  exists e, Job.put_request now r _id w = (Raise e, w)
            /\ forall code detail, e <> HTTPException code detail.
Proof.
  unfold Job.put_request, request_json, bind, lift.
  destruct (body r) as [mutation |].
  - destruct (put_raises now mutation _id w) as [-> | [-> | ->]];
      eexists; (split; [reflexivity | discriminate]).
  - exists ValueError. split; [reflexivity | discriminate].
Qed.

(** ** The readers (lines 42 to 50 and 77 to 78) *)

Lemma bson_eqb_int (n : Z) (v : value) :
  bson_eqb (VInt n) v = true <-> v = VInt n.
Proof.
  split.
  - destruct v; cbn; try discriminate.
    intros H. apply Z.eqb_eq in H. now subst.
  - intros ->. cbn. apply Z.eqb_refl.
Qed.

Lemma matches_id (n : Z) (d : doc) :
  matches [("_id", VInt n)] d = true <-> assoc "_id" d = Some (VInt n).
Proof.
  unfold matches. cbn [forallb fst snd]. rewrite andb_true_r.
  destruct (assoc "_id" d) as [v |].
  - rewrite bson_eqb_int. split; [now intros -> | now intros [= ->]].
  - split; discriminate.
Qed.

Lemma get_cases (_id : value) (w : world) :
  match py_int _id with
  | Ok n => Job.get _id w = find_one (VDict [("_id", n)]) w
  | Raise e => Job.get _id w = (Raise e, w)
  end.
Proof.
  unfold Job.get, bind, lift. destruct (py_int _id); reflexivity.
Qed.

Lemma get_found_stored (_id : value) (d : doc) (w w' : world) :
  Job.get _id w = (Ok (VDict d), w') ->
  w' = w /\ In d (jobs w) /\
  exists n, py_int _id = Ok (VInt n) /\ matches [("_id", VInt n)] d = true.
Proof.
  intros H. pose proof (get_cases _id w) as C.
  destruct (py_int_cases _id) as [[n E] | [E | E]]; rewrite E in C;
    rewrite C in H; try discriminate H.
  unfold find_one in H. rewrite bson_error_id in H.
  destruct (int64b n); [| discriminate H].
  destruct (find (matches [("_id", VInt n)]) (jobs w)) as [x |] eqn:F;
    [| discriminate H].
  injection H as -> <-. apply find_some in F as [Hin Hm]. eauto.
Qed.

(** X12: a document that get returns for a route parameter is one of the
    stored jobs, and its [_id] equals the integer the parameter denotes; the
    collection is as it was. *)
Theorem get_found (_id : value) (d : doc) (w w' : world) :
  Job.get _id w = (Ok (VDict d), w') ->
  w' = w /\ In d (jobs w) /\
  exists n v, py_int _id = Ok (VInt n) /\ assoc "_id" d = Some v
              /\ value_eqb (VInt n) v = true.
Proof.
  intros H. apply get_found_stored in H as (-> & Hin & n & E & Hm).
  split; [reflexivity |]. split; [exact Hin |].
  apply matches_id in Hm. exists n, (VInt n).
  split; [exact E |]. split; [exact Hm |]. cbn. apply Z.eqb_refl.
Qed.

Lemma get_found_witness :
  one_running = one_running /\ In (job_doc 1 "running" 10) (jobs one_running)
  /\ exists n v, py_int (VStr "1") = Ok (VInt n)
                 /\ assoc "_id" (job_doc 1 "running" 10) = Some v
                 /\ value_eqb (VInt n) v = true.
Proof.
  apply (get_found (VStr "1") (job_doc 1 "running" 10) one_running one_running).
  reflexivity.
Defined.

(** X13: for a route parameter that denotes an integer [n] that the store
    can hold, get returns None exactly when no stored job has the [_id]
    [n]: an unknown id is answered with None, not with an error.  For an
    integer outside the signed 64-bit range the driver cannot encode the
    query, and get raises OverflowError. *)
Theorem get_unknown_id (_id : value) (n : Z) (w : world) :
  py_int _id = Ok (VInt n) ->
  (int64b n = true ->
   (Job.get _id w = (Ok VNone, w) <->
    forall d, In d (jobs w) -> assoc "_id" d <> Some (VInt n)))
  /\ (int64b n = false -> Job.get _id w = (Raise OverflowError, w)).
Proof.
  intros E. pose proof (get_cases _id w) as C. rewrite E in C. rewrite C.
  unfold find_one. rewrite bson_error_id.
  split; intros B; rewrite B; [| reflexivity].
  destruct (find (matches [("_id", VInt n)]) (jobs w)) as [x |] eqn:F.
  - split; [discriminate |]. intros H. exfalso.
    apply find_some in F as [Hin Hm].
    apply matches_id in Hm. exact (H x Hin Hm).
  - split; [| reflexivity]. intros _ d Hin Hd.
    pose proof (find_none _ _ F d Hin) as Hm.
    apply matches_id in Hd. congruence.
Qed.

Lemma get_unknown_id_witness :
  (int64b 7 = true ->
   (Job.get (VStr "7") one_running = (Ok VNone, one_running) <->
    forall d, In d (jobs one_running) -> assoc "_id" d <> Some (VInt 7)))
  /\ (int64b 7 = false ->
      Job.get (VStr "7") one_running = (Raise OverflowError, one_running)).
Proof.
  apply (get_unknown_id (VStr "7") 7 one_running). reflexivity.
Defined.

(** X14: a job that get returns for some id is among the jobs that the list
    handler returns, and the count handler then answers the length of that
    list, which is at least one. *)
Theorem get_found_is_listed (_id : value) (d : doc) (w w' : world) :
  Job.get _id w = (Ok (VDict d), w') ->
  exists l, Jobs.get w = (Ok (VList l), w) /\ In (VDict d) l
            /\ Jobs.count w = (Ok (VInt (Z.of_nat (List.length l))), w)
            /\ 0 < Z.of_nat (List.length l).
Proof.
  intros H. apply get_found_stored in H as (_ & Hin & _).
  exists (map VDict (jobs w)).
  split; [reflexivity |]. split; [now apply in_map |].
  unfold Jobs.count. rewrite length_map. split; [reflexivity |].
  destruct (jobs w); [destruct Hin | cbn; apply Pos2Z.is_pos].
Qed.

Lemma get_found_is_listed_witness :
  exists l, Jobs.get one_running = (Ok (VList l), one_running)
            /\ In (VDict (job_doc 1 "running" 10)) l
            /\ Jobs.count one_running
               = (Ok (VInt (Z.of_nat (List.length l))), one_running)
            /\ 0 < Z.of_nat (List.length l).
Proof.
  apply (get_found_is_listed (VStr "1") (job_doc 1 "running" 10)
           one_running one_running).
  reflexivity.
Defined.

(** X15: neither a claim nor a mutation changes what the readers answer:
    after next or put, on any request, get of any id, the list and the count
    are what they were before. *)
Theorem readers_unchanged_by_writers
    (now : Z) (mutation _id i : value) (w : world) :
  Job.get i (snd (Job.put now mutation _id w)) = Job.get i w
  /\ Jobs.get (snd (Job.put now mutation _id w)) = Jobs.get w
  /\ Jobs.count (snd (Job.put now mutation _id w)) = Jobs.count w
  /\ Job.get i (snd (Jobs.next now w)) = Job.get i w
  /\ Jobs.get (snd (Jobs.next now w)) = Jobs.get w
  /\ Jobs.count (snd (Jobs.next now w)) = Jobs.count w.
Proof.
  rewrite next_raises.
  destruct (put_raises now mutation _id w) as [-> | [-> | ->]];
    cbn [snd]; repeat split.
Qed.
